(** * Context assembly and ingestion metadata of the multi-query chatbot lab

    A shallow embedding of the Python code of the notebook
    [lab-chatbot-with-multi-query-retriever.ipynb]:

    - [metadata_func]       (ingestion: metadata extraction for the JSON loader),
    - [LLM_DOCUMENT_PROMPT], [LLM_CONTEXT_PROMPT] (the two prompt templates),
    - [_combine_documents]  (context assembly),
    - [chain]               (retriever, context assembly, prompt, model),

    and, written from the specification because its code is LangChain's,
    the multi-query retriever the chain is built on.

    Python dictionaries are finite maps with string keys, [print] appends to
    an explicit standard-output log, and a raised exception is the result
    [None] of a computation in the monad [M]. *)

From Stdlib Require Import ZArith Ascii String DecimalString.
From stdpp Require Import base option list gmap strings.

Local Open Scope string_scope.
Local Open Scope list_scope.

(** ** Python values *)

(** What the code needs from the objects stored in a record or in a
    document's metadata: the object [None] (the default of [dict.get]), the
    embedding of [str] objects, and [format(v, "")], which is what an
    f-string style template applies to the value of a replacement field. *)
Class PyValue (V : Type) := {
  py_none : V;
  py_of_str : string -> V;
  py_format : V -> string;
  py_format_str : forall s, py_format (py_of_str s) = s
}.

(** The JSON scalars of the data set, as Python objects. *)
Inductive json : Type :=
  | JNull
  | JBool (b : bool)
  | JInt (z : Z)
  | JStr (s : string).

Definition json_format (v : json) : string :=
  match v with
  | JNull => "None"
  | JBool true => "True"
  | JBool false => "False"
  | JInt z => NilZero.string_of_int (Z.to_int z)
  | JStr s => s
  end.

#[global] Instance json_value : PyValue json := {|
  py_none := JNull;
  py_of_str := JStr;
  py_format := json_format;
  py_format_str := fun s => eq_refl
|}.

(** ** Characters that a Python literal writes with an escape *)

Definition nl : string := String "010"%char EmptyString.
Definition dquote : string := String "034"%char EmptyString.

(** ** Prompt templates *)

(** A parsed f-string style template: literal text and replacement fields. *)
Inductive piece : Type :=
  | Lit (text : string)
  | Field (key : string).

Definition template : Type := list piece.

Definition flush (lit : string) (t : template) : template :=
  if decide (lit = "") then t else Lit lit :: t.

(** A character that ends the name of a replacement field or takes a part
    of its value: the conversion mark, the colon of a format specification,
    attribute and index access. *)
Definition beyond_plain_field (c : ascii) : bool :=
  Ascii.eqb c "!" || Ascii.eqb c ":" || Ascii.eqb c "." || Ascii.eqb c "["
  || Ascii.eqb c "]".

(** [PromptTemplate.from_template] on the fragment the notebook uses: literal
    text and plain [{key}] fields, the only templates the type [template]
    holds. [lit] is the literal text read so far, [fld] the name of the
    field being read. [None] is the [ValueError] of an unbalanced brace;
    doubled braces, fields without a name, conversions, format
    specifications and attribute or index access are outside the fragment
    and are refused as well. *)
Fixpoint parse_fstring (s lit : string) (fld : option string) : option template :=
  match s with
  | EmptyString =>
      match fld with
      | Some _ => None
      | None => Some (flush lit [])
      end
  | String c rest =>
      match fld with
      | None =>
          if Ascii.eqb c "{" then flush lit <$> parse_fstring rest "" (Some "")
          else if Ascii.eqb c "}" then None
          else parse_fstring rest (lit +:+ String c "") None
      | Some k =>
          if Ascii.eqb c "}" then
            if decide (k = "") then None
            else cons (Field k) <$> parse_fstring rest "" None
          else if Ascii.eqb c "{" || beyond_plain_field c then None
          else parse_fstring rest lit (Some (k +:+ String c ""))
      end
  end.

Definition from_template (text : string) : option template :=
  parse_fstring text "" None.

(** [prompt.input_variables]: the names of the replacement fields. *)
Definition input_variables (t : template) : list string :=
  omap (fun p => match p with Field k => Some k | Lit _ => None end) t.

(** [prompt.format] on the keyword arguments [kwargs], for a template of
    literal text and plain fields: each field is replaced by
    [format(v, "")] of its value; a field without a value is a [KeyError].
    A plain field has no conversion and no format specification, so
    nothing else can raise. *)
Fixpoint format `{PyValue V} (t : template) (kwargs : gmap string V) : option string :=
  match t with
  | [] => Some ""
  | Lit text :: rest => String.append text <$> format rest kwargs
  | Field k :: rest =>
      v ← kwargs !! k;
      String.append (py_format v) <$> format rest kwargs
  end.

(** The text of the two templates of the notebook. *)
Definition LLM_DOCUMENT_TEXT : string :=
  nl +:+ "---" +:+ nl +:+ "SOURCE: {name}" +:+ nl +:+ "{page_content}" +:+ nl
  +:+ "---" +:+ nl.

Definition LLM_CONTEXT_HEAD : string :=
  "You are an assistant for question-answering tasks. Use the following pieces of retrieved context to answer the question. If you don't know the answer, just say that you don't know. Be as verbose and educational in your response as possible. "
  +:+ nl +:+ "    " +:+ nl +:+ "    context: ".

Definition LLM_CONTEXT_TEXT : string :=
  LLM_CONTEXT_HEAD +:+ "{context}" +:+ nl +:+ "    Question: " +:+ dquote
  +:+ "{question}" +:+ dquote +:+ nl +:+ "    Answer:" +:+ nl +:+ "    ".

Definition LLM_DOCUMENT_PROMPT : template :=
  [ Lit (nl +:+ "---" +:+ nl +:+ "SOURCE: "); Field "name"; Lit nl;
    Field "page_content"; Lit (nl +:+ "---" +:+ nl) ].

Definition LLM_CONTEXT_PROMPT : template :=
  [ Lit LLM_CONTEXT_HEAD; Field "context";
    Lit (nl +:+ "    Question: " +:+ dquote); Field "question";
    Lit (dquote +:+ nl +:+ "    Answer:" +:+ nl +:+ "    ") ].

(** ** Chat messages *)

(** The message of a chat prompt value; the notebook's prompt has human
    messages only. *)
Inductive message : Type :=
  | HumanMessage (content : string).

(** [ChatPromptValue.to_string()]: each message as its role, a colon, a
    space and its content, the messages joined by newlines. *)
Definition to_string (messages : list message) : string :=
  String.concat nl
    (map (fun m => match m with HumanMessage content => "Human: " +:+ content end)
       messages).

(** ** Documents, standard output and exceptions *)

Section Pipeline.
Context {V : Type} `{PyValue V}.

(** A LangChain [Document]: the text of a passage and its metadata dict. *)
Record Document : Type := mkDocument {
  page_content : string;
  metadata : gmap string V
}.

(** A line written by [print]; the dict it shows is kept as a value. The
    last two are the records the retriever logs for a failed call. *)
Inductive line : Type :=
  | SkippingDocument (record : gmap string V)
  | MissingName (md : gmap string V)
  | MissingPageContent (md : gmap string V)
  | ExpansionFailed (query : string)
  | SearchFailed (query : string).

(** A computation that prints and may raise: from the lines printed so far
    to the result ([None] when an exception left the function) and the
    lines printed by then. *)
Definition M (A : Type) : Type := list line -> option A * list line.

Definition ret {A} (x : A) : M A := fun out => (Some x, out).

Definition bind {A B} (c : M A) (k : A -> M B) : M B :=
  fun out =>
    match c out with
    | (Some x, out') => k x out'
    | (None, out') => (None, out')
    end.

Definition print (l : line) : M unit := fun out => (Some tt, out ++ [l]).

(** The result of a library call that raises when it has no value. *)
Definition lift {A} (o : option A) : M A := fun out => (o, out).

Notation "x <- c ;; k" := (bind c (fun x => k))
  (at level 100, c at next level, right associativity).
Notation "c ;; k" := (bind c (fun _ => k))
  (at level 100, right associativity).

(** ** [format_document] (LangChain)

    The library builds the keyword arguments of the template as
    [{"page_content": doc.page_content, **doc.metadata}]: the metadata
    entries come last, so a metadata entry named [page_content] replaces the
    text of the passage. It raises [ValueError] when an input variable of
    the template has no value there, and otherwise formats the template
    with the values of its input variables (the dict restricted to them,
    which has the same value for every field of the template). *)
Definition base_info (doc : Document) : gmap string V :=
  metadata doc ∪ {[ "page_content" := py_of_str (page_content doc) ]}.

Definition has_key (k : string) (d : gmap string V) : bool :=
  bool_decide (is_Some (d !! k)).

Definition format_document (doc : Document) (prompt : template) : option string :=
  if forallb (fun k => has_key k (base_info doc)) (input_variables prompt)
  then format prompt (base_info doc)
  else None.

(** ** Context assembly *)

(** The [for doc in docs] loop of [_combine_documents]; [doc_strings] is the
    list the loop appends to. *)
Fixpoint combine_loop (docs : list Document) (document_prompt : template)
    (doc_strings : list string) : M (list string) :=
  match docs with
  | [] => ret doc_strings
  | doc :: rest =>
      if negb (has_key "name" (metadata doc)) then
        print (MissingName (metadata doc)) ;;
        combine_loop rest document_prompt doc_strings
      else if String.eqb (page_content doc) "" then
        print (MissingPageContent (metadata doc)) ;;
        combine_loop rest document_prompt doc_strings
      else
        s <- lift (format_document doc document_prompt) ;;
        combine_loop rest document_prompt (doc_strings ++ [s])
  end.

(** [document_separator.join(doc_strings)] is [String.concat]. *)
Definition _combine_documents (docs : list Document) (document_prompt : template)
    (document_separator : string) : M string :=
  doc_strings <- combine_loop docs document_prompt [] ;;
  ret (String.concat document_separator doc_strings).

(** The default of the keyword argument [document_separator]. *)
Definition default_separator : string := nl +:+ nl.

(** ** The chain

    [retriever] and [llm] are the two external services: the multi-query
    retriever built by LangChain over the vector store, and the language
    model, a completion model ([langchain_openai.llms.OpenAI]) that takes a
    string and returns a string. *)
Section Chain.
Variable retriever : string -> M (list Document).
Variable llm : string -> M string.

(** [RunnableParallel(context=retriever | _combine_documents,
    question=RunnablePassthrough())]: the dict with the two entries. *)
Definition _context (question : string) : M (gmap string V) :=
  docs <- retriever question ;;
  context <- _combine_documents docs LLM_DOCUMENT_PROMPT default_separator ;;
  ret (<["question" := py_of_str question]>
         (<["context" := py_of_str context]> ∅)).

(** [_context | LLM_CONTEXT_PROMPT]: [ChatPromptTemplate.from_template]
    makes a chat prompt of one human message, so the prompt value is the
    list of that one message, its content the formatted template. *)
Definition chain_prompt (question : string) : M (list message) :=
  inputs <- _context question ;;
  content <- lift (format LLM_CONTEXT_PROMPT inputs) ;;
  ret [HumanMessage content].

(** [chain = _context | LLM_CONTEXT_PROMPT | llm]: a completion model is
    called on the text [to_string] makes of the prompt value. *)
Definition chain (question : string) : M string :=
  prompt <- chain_prompt question ;;
  llm (to_string prompt).

End Chain.

(** ** The multi-query retriever

    The notebook builds its retriever with
    [MultiQueryRetriever.from_llm(vectorstore.as_retriever(), llm)]; the
    code of that class is LangChain's and is not in the repository. *)
Section Retriever.

(** The two services of the spec's external interfaces,
    [expand(query, n)] and [search(query, top_k)]. A call that fails or
    times out is the result [None]; a call may add lines to the log. *)
Variable expand : string -> nat -> M (list string).
Variable search : string -> nat -> M (list Document).

(** Modelled from the spec: the queries of an ExpandedQuerySet (3), in the
    order the model gave them and without the repetitions of a query seen
    before. *)
Fixpoint distinct (seen queries : list string) : list string :=
  match queries with
  | [] => []
  | query :: rest =>
      if bool_decide (query ∈ seen) then distinct seen rest
      else query :: distinct (query :: seen) rest
  end.

(** Modelled from the spec: the Query Expander (4.1), whose code is in
    LangChain. It asks the model for [N] phrasings and keeps at most [N] of
    them, without duplicates; when the call fails or gives no usable query
    it logs the failure and falls back to the original query alone. *)
Definition expand_query (query : string) (N : nat) : M (list string) :=
  fun out =>
    match expand query N out with
    | (Some queries, out') =>
        match take N (distinct [] queries) with
        | [] => (Some [query], out' ++ [ExpansionFailed query])
        | expanded => (Some expanded, out')
        end
    | (None, out') => (Some [query], out' ++ [ExpansionFailed query])
    end.

(** Modelled from the spec: the searches of the Parallel Retriever (4.2),
    whose code is in LangChain. One search per query, here in the order of
    the queries (the spec asks for no order between them); a search that
    fails is logged and gives no document, and the others go on. *)
Fixpoint search_each (queries : list string) (top_k : nat) : M (list Document) :=
  match queries with
  | [] => ret []
  | query :: rest =>
      fun out =>
        match search query top_k out with
        | (Some found, out') =>
            (more <- search_each rest top_k ;; ret (found ++ more)) out'
        | (None, out') =>
            (print (SearchFailed query) ;; search_each rest top_k) out'
        end
  end.

(** Modelled from the spec: the merge of the Parallel Retriever (4.2),
    whose code is in LangChain. The identity of a document is its content,
    not its metadata; a document is kept when its content was not seen
    before, so the set is in first-seen order. *)
Fixpoint dedupe (seen : list string) (docs : list Document) : list Document :=
  match docs with
  | [] => []
  | doc :: rest =>
      if bool_decide (page_content doc ∈ seen) then dedupe seen rest
      else doc :: dedupe (page_content doc :: seen) rest
  end.

(** Modelled from the spec: the Multi-Query Retriever (2), whose code is in
    LangChain: query expansion, then the searches, then the merge. *)
Definition multi_query_retriever (N top_k : nat) (question : string)
    : M (list Document) :=
  queries <- expand_query question N ;;
  found <- search_each queries top_k ;;
  ret (dedupe [] found).

End Retriever.

(** ** Ingestion: [metadata_func] *)

Definition required_fields : list string :=
  ["name"; "summary"; "url"; "category"; "updated_at"].

(** [record.get(k)]. *)
Definition get (record : gmap string V) (k : string) : V :=
  default py_none (record !! k).

(** The function mutates the dict [metadata] it is given and returns that
    same dict, or prints and returns [None]. The result is the returned
    value together with the dict [metadata] as the call leaves it. *)
Definition metadata_func (record metadata : gmap string V)
    : M (option (gmap string V) * gmap string V) :=
  if forallb (fun field => has_key field record) required_fields then
    let metadata := <["name" := get record "name"]> metadata in
    let metadata := <["summary" := get record "summary"]> metadata in
    let metadata := <["url" := get record "url"]> metadata in
    let metadata := <["category" := get record "category"]> metadata in
    let metadata := <["updated_at" := get record "updated_at"]> metadata in
    ret (Some metadata, metadata)
  else
    print (SkippingDocument record) ;;
    ret (None, metadata).

End Pipeline.

Arguments Document V : clear implicits.
Arguments line V : clear implicits.

(** ** What the theorems speak of *)

Section Statements.
Context {V : Type} `{PyValue V}.

(** The completeness check of [_combine_documents]: the two [continue]
    guards, negated. *)
Definition passes (doc : Document V) : bool :=
  has_key "name" (metadata doc) && negb (String.eqb (page_content doc) "").

(** The lines [_combine_documents] prints, one per skipped document. *)
Definition reports (docs : list (Document V)) : list (line V) :=
  flat_map (fun doc =>
    if negb (has_key "name" (metadata doc)) then [MissingName (metadata doc)]
    else if String.eqb (page_content doc) "" then [MissingPageContent (metadata doc)]
    else []) docs.

(** The two values [LLM_DOCUMENT_PROMPT] shows of a document. *)
Definition source_label (doc : Document V) : string :=
  py_format (get (metadata doc) "name").

Definition body (doc : Document V) : string :=
  match metadata doc !! "page_content" with
  | Some v => py_format v
  | None => page_content doc
  end.

(** [LLM_DOCUMENT_PROMPT] with its two fields filled in. *)
Definition instantiate (doc : Document V) : string :=
  nl +:+ "---" +:+ nl +:+ "SOURCE: " +:+ source_label doc +:+ nl
  +:+ body doc +:+ nl +:+ "---" +:+ nl.

(** [LLM_CONTEXT_PROMPT] with its two fields filled in. *)
Definition context_prompt_text (context question : string) : string :=
  LLM_CONTEXT_HEAD +:+ context +:+ nl +:+ "    Question: " +:+ dquote
  +:+ question +:+ dquote +:+ nl +:+ "    Answer:" +:+ nl +:+ "    ".

(** A joined string written with its separators: each string after the
    first is preceded by one separator. *)
Definition separated (sep : string) (rest : list string) : string :=
  fold_right (fun s acc => sep +:+ s +:+ acc) "" rest.

(** Two documents that show [LLM_DOCUMENT_PROMPT] the same text, the same
    [name] entry and the same [page_content] entry. *)
Definition same_fields (d1 d2 : Document V) : Prop :=
  page_content d1 = page_content d2
  /\ metadata d1 !! "name" = metadata d2 !! "name"
  /\ metadata d1 !! "page_content" = metadata d2 !! "page_content".

(** The agreement of two documents on their page content and on the
    presence and value of their metadata entry [name]. *)
Definition same_text_and_name (d1 d2 : Document V) : Prop :=
  page_content d1 = page_content d2
  /\ metadata d1 !! "name" = metadata d2 !! "name".

(** The instantiation with the page content of the document for body. *)
Definition instantiate_page_content (doc : Document V) : string :=
  nl +:+ "---" +:+ nl +:+ "SOURCE: " +:+ source_label doc +:+ nl
  +:+ page_content doc +:+ nl +:+ "---" +:+ nl.

(** [s] ends with [t]. *)
Definition ends_with (s t : string) : Prop := exists front, s = front +:+ t.

(** The value [metadata_func] returns, when it returns. *)
Definition returned (r : option (option (gmap string V) * gmap string V) * list (line V))
    : option (gmap string V) :=
  '(value, _) ← fst r; value.

End Statements.

(** Sample documents: a complete one, one without a name, one without
    text, and one whose metadata has an entry named [page_content]. *)
Definition doc_policy : Document json :=
  mkDocument "Work two days from home."
    {[ "name" := JStr "Work From Home Policy"; "seq_num" := JInt 1 ]}.

Definition doc_tax : Document json :=
  mkDocument "Update your TD1 form." {[ "seq_num" := JInt 14 ]}.

Definition doc_blank : Document json :=
  mkDocument "" {[ "name" := JStr "Empty page" ]}.

Definition doc_plain : Document json :=
  mkDocument "b" {[ "name" := JStr "n" ]}.

Definition doc_shadowed : Document json :=
  mkDocument "b" {[ "name" := JStr "n"; "page_content" := JStr "X" ]}.

Definition record_full : gmap string json :=
  {[ "name" := JStr "Code Of Conduct"; "summary" := JStr "Principles.";
     "url" := JStr "./sharepoint/coc.txt"; "category" := JStr "sharepoint";
     "updated_at" := JNull; "content" := JStr "Be kind." ]}.

Definition record_partial : gmap string json :=
  {[ "name" := JStr "Code Of Conduct"; "summary" := JStr "Principles.";
     "url" := JStr "./sharepoint/coc.txt"; "category" := JStr "sharepoint";
     "content" := JStr "Be kind." ]}.

Definition loader_metadata : gmap string json :=
  {[ "source" := JStr "temp.json"; "seq_num" := JInt 9 ]}.

(** ** Further notions *)

Section MoreStatements.
Context {V : Type} `{PyValue V}.

(** The document has a value for every input variable of the template:
    its page content for [page_content], a metadata entry for the others. *)
Definition formattable (doc : Document V) (prompt : template) : Prop :=
  Forall (fun k => k = "page_content" \/ is_Some (metadata doc !! k))
    (input_variables prompt).

(** The number of characters of [LLM_DOCUMENT_PROMPT] once filled in: 19
    characters of literal text, the label and the body. *)
Definition instantiation_length (doc : Document V) : nat :=
  19 + String.length (source_label doc) + String.length (body doc).

(** A document whose metadata is the single entry [name]. *)
Definition named (label text : string) : Document V :=
  mkDocument text {[ "name" := py_of_str label ]}.

(** The literal text [LLM_DOCUMENT_PROMPT] starts and ends with. *)
Definition document_head : string := nl +:+ "---" +:+ nl +:+ "SOURCE: ".
Definition document_foot : string := nl +:+ "---" +:+ nl.

End MoreStatements.




(** * Theorems *)

Lemma LLM_DOCUMENT_PROMPT_parsed :
  from_template LLM_DOCUMENT_TEXT = Some LLM_DOCUMENT_PROMPT.
Proof. vm_compute. reflexivity. Qed.

Lemma LLM_CONTEXT_PROMPT_parsed :
  from_template LLM_CONTEXT_TEXT = Some LLM_CONTEXT_PROMPT.
Proof. vm_compute. reflexivity. Qed.

(** ** Strings *)

Lemma append_cons a s t : String a s +:+ t = String a (s +:+ t).
Proof. reflexivity. Qed.

Lemma append_nil_r s : s +:+ "" = s.
Proof. induction s as [|a s IH]; [reflexivity|]. rewrite append_cons. by f_equal. Qed.

Lemma append_assoc s t u : (s +:+ t) +:+ u = s +:+ (t +:+ u).
Proof.
  induction s as [|a s IH]; [reflexivity|].
  rewrite !append_cons. by f_equal.
Qed.

Lemma concat_cons sep s rest :
  String.concat sep (s :: rest) = s +:+ separated sep rest.
Proof.
  revert s. induction rest as [|t rest IH]; intros s.
  - cbn. by rewrite append_nil_r.
  - change (String.concat sep (s :: t :: rest))
      with (s +:+ sep +:+ String.concat sep (t :: rest)).
    rewrite IH. reflexivity.
Qed.

Lemma separated_app sep l1 l2 :
  separated sep (l1 ++ l2) = separated sep l1 +:+ separated sep l2.
Proof.
  induction l1 as [|s l1 IH]; [reflexivity|].
  cbn [separated fold_right app]. fold (separated sep (l1 ++ l2)).
  fold (separated sep l1). rewrite IH. by rewrite !append_assoc.
Qed.

Lemma concat_app sep s1 l1 s2 l2 :
  String.concat sep ((s1 :: l1) ++ s2 :: l2)
  = String.concat sep (s1 :: l1) +:+ sep +:+ String.concat sep (s2 :: l2).
Proof.
  change ((s1 :: l1) ++ s2 :: l2) with (s1 :: (l1 ++ s2 :: l2)).
  rewrite !concat_cons, separated_app, append_assoc. reflexivity.
Qed.
(** ** Dictionaries and the completeness check *)

Section Proofs.
Context {V : Type} `{PyValue V}.
Implicit Types (doc : Document V) (docs : list (Document V)) (out : list (line V)).

Lemma has_key_true k (d : gmap string V) : has_key k d = true <-> is_Some (d !! k).
Proof. unfold has_key. apply bool_decide_eq_true. Qed.

Lemma has_key_false k (d : gmap string V) : has_key k d = false <-> d !! k = None.
Proof.
  unfold has_key. rewrite bool_decide_eq_false. symmetry. apply eq_None_not_Some.
Qed.

Lemma passes_true doc :
  passes doc = true <-> is_Some (metadata doc !! "name") /\ page_content doc <> "".
Proof.
  unfold passes. rewrite andb_true_iff, negb_true_iff, has_key_true.
  by rewrite String.eqb_neq.
Qed.

(** ** [format_document] on [LLM_DOCUMENT_PROMPT] *)

Lemma base_info_name doc : base_info doc !! "name" = metadata doc !! "name".
Proof.
  unfold base_info. rewrite lookup_union, lookup_singleton_ne by done.
  by destruct (metadata doc !! "name").
Qed.

Lemma base_info_page_content doc :
  base_info doc !! "page_content"
  = Some (default (py_of_str (page_content doc)) (metadata doc !! "page_content")).
Proof.
  unfold base_info. rewrite lookup_union, lookup_singleton_eq.
  by destruct (metadata doc !! "page_content").
Qed.

(** Without a metadata entry named [page_content], the body shown is the
    page content of the document. *)
Lemma body_page_content doc :
  metadata doc !! "page_content" = None -> body doc = page_content doc.
Proof. intros Hnone. unfold body. by rewrite Hnone. Qed.

Lemma format_document_default doc :
  has_key "name" (metadata doc) = true ->
  format_document doc LLM_DOCUMENT_PROMPT = Some (instantiate doc).
Proof.
  intros Hname. apply has_key_true in Hname as [v Hv].
  unfold format_document, has_key. cbn [input_variables LLM_DOCUMENT_PROMPT omap list_omap forallb].
  rewrite base_info_name, base_info_page_content, Hv.
  rewrite !bool_decide_eq_true_2 by eauto. unfold LLM_DOCUMENT_PROMPT. cbn [andb format].
  rewrite base_info_name, base_info_page_content, Hv.
  unfold instantiate, source_label, body, get. rewrite Hv.
  destruct (metadata doc !! "page_content") as [w|]; cbn;
    rewrite ?py_format_str; reflexivity.
Qed.

(** ** The loop of [_combine_documents] *)

Lemma reports_cons doc docs :
  reports (doc :: docs)
  = (if negb (has_key "name" (metadata doc)) then [MissingName (metadata doc)]
     else if String.eqb (page_content doc) "" then [MissingPageContent (metadata doc)]
     else []) ++ reports docs.
Proof. reflexivity. Qed.

Lemma reports_app docs1 docs2 : reports (docs1 ++ docs2) = reports docs1 ++ reports docs2.
Proof. apply flat_map_app. Qed.

(** On the notebook's document template the loop never raises: it appends
    the instantiation of each document that passes the check and prints one
    line for each of the others. *)
Lemma combine_loop_default docs : forall doc_strings out,
  combine_loop docs LLM_DOCUMENT_PROMPT doc_strings out
  = (Some (doc_strings ++ map instantiate (List.filter passes docs)),
     out ++ reports docs).
Proof.
  induction docs as [|doc docs IH]; intros doc_strings out.
  - cbn. by rewrite !app_nil_r.
  - rewrite reports_cons. cbn [combine_loop List.filter]. unfold passes.
    destruct (has_key "name" (metadata doc)) eqn:Hname; cbn [negb andb].
    + destruct (String.eqb (page_content doc) "") eqn:Hbody; cbn [negb].
      * unfold bind, print. rewrite IH. by rewrite <- app_assoc.
      * unfold bind, lift. rewrite format_document_default by done.
        rewrite IH. cbn [map]. by rewrite <- app_assoc, app_nil_l.
    + unfold bind, print. rewrite IH. by rewrite <- app_assoc.
Qed.

(** Whatever the template, the result of the loop does not depend on what
    was printed before, and the loop only adds lines. *)
Lemma combine_loop_frame docs prompt : forall doc_strings out,
  combine_loop docs prompt doc_strings out
  = (fst (combine_loop docs prompt doc_strings []),
     out ++ snd (combine_loop docs prompt doc_strings [])).
Proof.
  induction docs as [|doc docs IH]; intros doc_strings out.
  - cbn. by rewrite app_nil_r.
  - cbn [combine_loop].
    destruct (negb (has_key "name" (metadata doc))).
    { unfold bind, print. rewrite (IH _ (out ++ _)), (IH _ ([] ++ _)).
      cbn [fst snd]. by rewrite <- !app_assoc. }
    destruct (String.eqb (page_content doc) "").
    { unfold bind, print. rewrite (IH _ (out ++ _)), (IH _ ([] ++ _)).
      cbn [fst snd]. by rewrite <- !app_assoc. }
    unfold bind, lift. destruct (format_document doc prompt) as [s|].
    + apply IH.
    + cbn. by rewrite app_nil_r.
Qed.

(** Whatever the template, documents that all fail the check leave
    [doc_strings] as it was: [format_document] is never called. *)
Lemma combine_loop_all_skipped docs prompt : forall doc_strings out,
  Forall (fun doc => passes doc = false) docs ->
  combine_loop docs prompt doc_strings out = (Some doc_strings, out ++ reports docs).
Proof.
  induction docs as [|doc docs IH]; intros doc_strings out Hall.
  - cbn. by rewrite app_nil_r.
  - apply Forall_cons in Hall as [Hdoc Hall]. rewrite reports_cons.
    cbn [combine_loop]. unfold passes in Hdoc.
    destruct (has_key "name" (metadata doc)); cbn [negb andb] in *.
    + destruct (String.eqb (page_content doc) ""); [|done].
      unfold bind, print. rewrite IH by done. by rewrite <- app_assoc.
    + unfold bind, print. rewrite IH by done. by rewrite <- app_assoc.
Qed.

Lemma filter_passes_idemp docs :
  List.filter passes (List.filter passes docs) = List.filter passes docs.
Proof.
  induction docs as [|doc docs IH]; [done|]. cbn [List.filter].
  destruct (passes doc) eqn:Hdoc; [|done]. cbn [List.filter]. by rewrite Hdoc, IH.
Qed.

Lemma combine_documents_default docs sep out :
  _combine_documents docs LLM_DOCUMENT_PROMPT sep out
  = (Some (String.concat sep (map instantiate (List.filter passes docs))),
     out ++ reports docs).
Proof.
  unfold _combine_documents, bind. rewrite combine_loop_default. reflexivity.
Qed.

(** ** Context assembly *)

(** C1. On every list of documents, [_combine_documents] returns (it does
    not raise) the instantiations of the document template, in the order of
    the list and joined by the separator, of exactly the documents whose
    metadata has the key [name] and whose page content is not empty; it
    prints one line for each other document; and each skipped document is
    without effect on the result, which is the one of the list without
    them. *)
Theorem combine_documents_joins_the_complete docs sep out :
  _combine_documents docs LLM_DOCUMENT_PROMPT sep out
  = (Some (String.concat sep (map instantiate (List.filter passes docs))),
     out ++ reports docs)
  /\ Forall (fun doc => format_document doc LLM_DOCUMENT_PROMPT = Some (instantiate doc))
       (List.filter passes docs)
  /\ fst (_combine_documents docs LLM_DOCUMENT_PROMPT sep out)
     = fst (_combine_documents (List.filter passes docs) LLM_DOCUMENT_PROMPT sep out).
Proof.
  split; [apply combine_documents_default|split].
  - apply List.Forall_forall. intros doc Hin.
    apply List.filter_In in Hin as [_ Hdoc].
    apply format_document_default.
    unfold passes in Hdoc. by apply andb_true_iff in Hdoc as [? _].
  - rewrite !combine_documents_default. cbn [fst]. by rewrite filter_passes_idemp.
Qed.

(** C5. Context assembly is a function of the documents, the template and
    the separator alone: whatever was printed before, the returned string
    is the same, and a second call right after a first one returns the
    same string (or raises as the first did). *)
Theorem combine_documents_deterministic docs prompt sep out1 out2 :
  fst (_combine_documents docs prompt sep out1)
  = fst (_combine_documents docs prompt sep out2)
  /\ fst (_combine_documents docs prompt sep
            (snd (_combine_documents docs prompt sep out1)))
     = fst (_combine_documents docs prompt sep out1).
Proof.
  assert (Hfst : forall out, fst (_combine_documents docs prompt sep out)
                 = fst (_combine_documents docs prompt sep [])).
  { intros out. unfold _combine_documents, bind.
    rewrite (combine_loop_frame _ _ _ out).
    destruct (combine_loop docs prompt [] []) as [[ds|] out']; reflexivity. }
  split.
  - by rewrite (Hfst out1), (Hfst out2).
  - by rewrite (Hfst (snd _)), (Hfst out1).
Qed.

(** ** The prompt of the chain *)

Lemma format_context_prompt (context question : string) :
  format LLM_CONTEXT_PROMPT
    (<["question" := py_of_str question]> (<["context" := py_of_str context]> ∅))
  = Some (context_prompt_text context question).
Proof.
  unfold LLM_CONTEXT_PROMPT. cbn [format].
  rewrite (lookup_insert_ne _ "question" "context") by done.
  rewrite !lookup_insert_eq. cbn. rewrite !py_format_str. reflexivity.
Qed.

(** The prompt value of the chain: one human message, whose context is the
    joined string of the retrieved documents. *)
Lemma chain_prompt_default retriever question docs out out' :
  retriever question out = (Some docs, out') ->
  chain_prompt retriever question out
  = (Some [HumanMessage
             (context_prompt_text
                (String.concat default_separator
                   (map instantiate (List.filter passes docs)))
                question)],
     out' ++ reports docs).
Proof.
  intros Hdocs. unfold chain_prompt, _context, bind at 1 2 3. rewrite Hdocs.
  unfold bind. rewrite combine_documents_default. unfold ret, lift.
  by rewrite format_context_prompt.
Qed.

(** The text a completion model is called on, for a prompt value of one
    human message. *)
Lemma to_string_human content : to_string [HumanMessage content] = "Human: " +:+ content.
Proof. reflexivity. Qed.

Lemma filter_passes_none docs :
  Forall (fun doc => passes doc = false) docs -> List.filter passes docs = [].
Proof.
  induction 1 as [|doc docs Hdoc _ IH]; [done|]. cbn [List.filter]. by rewrite Hdoc.
Qed.

(** C6. When no document passes the check (the empty list is such a list),
    [_combine_documents] returns the empty string, whatever the template and
    the separator. The prompt value of the chain is then one human message
    whose content is the whole text of [LLM_CONTEXT_PROMPT] with nothing
    between the label of the context and the end of its line, and the
    completion model is called on the text of that prompt value: the role
    of the message and this content. *)
Theorem empty_context_keeps_the_prompt docs :
  Forall (fun doc => passes doc = false) docs ->
  (forall prompt sep out,
     _combine_documents docs prompt sep out = (Some "", out ++ reports docs))
  /\ (forall retriever llm question out out',
        retriever question out = (Some docs, out') ->
        chain_prompt retriever question out
        = (Some [HumanMessage (context_prompt_text "" question)],
           out' ++ reports docs)
        /\ chain retriever llm question out
           = llm ("Human: " +:+ context_prompt_text "" question)
               (out' ++ reports docs)).
Proof.
  intros Hall. split.
  - intros prompt sep out. unfold _combine_documents, bind.
    by rewrite combine_loop_all_skipped.
  - intros retriever llm question out out' Hdocs.
    assert (Hprompt : chain_prompt retriever question out
              = (Some [HumanMessage (context_prompt_text "" question)],
                 out' ++ reports docs)).
    { rewrite (chain_prompt_default _ _ _ _ _ Hdocs).
      by rewrite filter_passes_none. }
    split; [done|]. unfold chain, bind. by rewrite Hprompt.
Qed.

(** ** What the context depends on *)

Lemma same_fields_passes (d1 d2 : Document V) :
  same_fields d1 d2 -> passes d1 = passes d2.
Proof.
  intros (Htext & Hname & _). unfold passes, has_key. by rewrite Htext, Hname.
Qed.

Lemma same_fields_instantiate (d1 d2 : Document V) :
  same_fields d1 d2 -> instantiate d1 = instantiate d2.
Proof.
  intros (Htext & Hname & Hshadow).
  unfold instantiate, source_label, body, get. by rewrite Htext, Hname, Hshadow.
Qed.

(** C9, as the code has it. The returned context is a function of three
    things per document: its page content, its metadata entry [name] and
    its metadata entry [page_content], which [format_document] lets take
    the place of the page content. Two lists of documents that agree on
    these, document by document, give the same context, whatever their
    other metadata entries, the separator and what was printed before. *)
Theorem context_depends_on_template_fields docs1 docs2 sep out1 out2 :
  Forall2 same_fields docs1 docs2 ->
  fst (_combine_documents docs1 LLM_DOCUMENT_PROMPT sep out1)
  = fst (_combine_documents docs2 LLM_DOCUMENT_PROMPT sep out2).
Proof.
  intros Hsame. rewrite !combine_documents_default. cbn [fst]. do 2 f_equal.
  induction Hsame as [|d1 d2 docs1 docs2 Hd _ IH]; [done|].
  cbn [List.filter]. rewrite <- (same_fields_passes _ _ Hd).
  destruct (passes d1); [|done]. cbn [map].
  by rewrite IH, (same_fields_instantiate _ _ Hd).
Qed.

(** ** Joining *)

Lemma ends_with_append s t u : ends_with s t -> ends_with (u +:+ s) t.
Proof. intros [front ->]. exists (u +:+ front). by rewrite append_assoc. Qed.

Lemma instantiate_head (doc : Document V) :
  exists tail, instantiate doc = (nl +:+ "---" +:+ nl +:+ "SOURCE: ") +:+ tail.
Proof.
  eexists. unfold instantiate. rewrite !append_assoc. reflexivity.
Qed.

Lemma instantiate_foot (doc : Document V) :
  ends_with (instantiate doc) (nl +:+ "---" +:+ nl).
Proof.
  exists (nl +:+ "---" +:+ nl +:+ "SOURCE: " +:+ source_label doc +:+ nl +:+ body doc).
  unfold instantiate. rewrite !append_assoc. reflexivity.
Qed.

Lemma joined_foot sep foot (first : string) rest :
  Forall (fun s => ends_with s foot) (first :: rest) ->
  ends_with (first +:+ separated sep rest) foot.
Proof.
  revert first. induction rest as [|s rest IH]; intros first Hall.
  - cbn. rewrite append_nil_r. by apply Forall_cons in Hall as [? _].
  - apply Forall_cons in Hall as [_ Hall].
    cbn [separated fold_right]. fold (separated sep rest).
    do 2 apply ends_with_append. by apply IH.
Qed.

Lemma existsb_passes docs :
  existsb passes docs = true ->
  exists doc rest, List.filter passes docs = doc :: rest.
Proof.
  intros Hex. apply existsb_exists in Hex as (doc & Hin & Hdoc).
  destruct (List.filter passes docs) as [|d rest] eqn:Hfilter; [|by eauto].
  assert (Hnil : In doc []) by (rewrite <- Hfilter; by apply List.filter_In).
  destruct Hnil.
Qed.

(** C10. On the notebook's document template, the context of a list
    [xs ++ ys] is the context of [xs], one separator, and the context of
    [ys], provided each of the two lists has a document that passes the
    check. The context of a list with [n + 1] such documents is the first
    instantiation followed by [n] strings, each of them one separator and
    one instantiation: it starts with the head of the first instantiation
    and ends with the foot of the last one. *)
Theorem combine_documents_app sep :
  (forall xs ys out,
     existsb passes xs = true -> existsb passes ys = true ->
     exists a b,
       fst (_combine_documents xs LLM_DOCUMENT_PROMPT sep out) = Some a
       /\ fst (_combine_documents ys LLM_DOCUMENT_PROMPT sep out) = Some b
       /\ fst (_combine_documents (xs ++ ys) LLM_DOCUMENT_PROMPT sep out)
          = Some (a +:+ sep +:+ b))
  /\ (forall docs out n,
        length (List.filter passes docs) = S n ->
        exists first rest,
          map instantiate (List.filter passes docs) = first :: rest
          /\ length rest = n
          /\ fst (_combine_documents docs LLM_DOCUMENT_PROMPT sep out)
             = Some (first +:+ separated sep rest)
          /\ (exists tail, first +:+ separated sep rest
                = (nl +:+ "---" +:+ nl +:+ "SOURCE: ") +:+ tail)
          /\ ends_with (first +:+ separated sep rest) (nl +:+ "---" +:+ nl)).
Proof.
  split.
  - intros xs ys out Hxs Hys.
    apply existsb_passes in Hxs as (x & xs' & Hxs).
    apply existsb_passes in Hys as (y & ys' & Hys).
    do 2 eexists. rewrite !combine_documents_default. cbn [fst].
    split; [reflexivity|]. split; [reflexivity|].
    rewrite List.filter_app, Hxs, Hys, map_app. cbn [map].
    by rewrite concat_app.
  - intros docs out n Hlen.
    destruct (List.filter passes docs) as [|doc valid] eqn:Hfilter; [done|].
    exists (instantiate doc), (map instantiate valid).
    split; [done|]. split; [rewrite length_map; cbn in Hlen; lia|].
    split; [|split].
    + rewrite combine_documents_default, Hfilter. cbn [fst map].
      by rewrite concat_cons.
    + destruct (instantiate_head doc) as [tail ->].
      eexists. by rewrite append_assoc.
    + apply joined_foot. change (Forall (fun s => ends_with s (nl +:+ "---" +:+ nl))
                                   (map instantiate (doc :: valid))).
      apply Forall_map, Forall_forall. intros d _. apply instantiate_foot.
Qed.

(** ** Ingestion *)

Lemma required_fields_present (record : gmap string V) :
  forallb (fun field => has_key field record) required_fields = true
  <-> Forall (fun k => is_Some (record !! k)) required_fields.
Proof.
  rewrite List.forallb_forall, List.Forall_forall.
  split; intros Hall k Hin; apply has_key_true; auto.
Qed.

Lemma get_present (record : gmap string V) k :
  is_Some (record !! k) -> Some (get record k) = record !! k.
Proof. intros [v Hv]. unfold get. by rewrite Hv. Qed.

(** C8. [metadata_func] is all or nothing. When the record has the five
    required keys it returns the dict it was given, with the five entries
    set to the record's values and every other entry as it was, and prints
    nothing. When one of the five is missing it returns [None], leaves the
    dict untouched and prints one line. It returns a dict exactly when the
    five keys are present. *)
Theorem metadata_func_all_or_nothing (record metadata : gmap string V) out :
  (Forall (fun k => is_Some (record !! k)) required_fields ->
     exists m,
       metadata_func record metadata out = (Some (Some m, m), out)
       /\ (forall k, k ∈ required_fields -> m !! k = record !! k)
       /\ (forall k, k ∉ required_fields -> m !! k = metadata !! k)
       /\ dom m = dom metadata ∪ list_to_set required_fields)
  /\ (~ Forall (fun k => is_Some (record !! k)) required_fields ->
        metadata_func record metadata out
        = (Some (None, metadata), out ++ [SkippingDocument record]))
  /\ (is_Some (returned (metadata_func record metadata out))
      <-> Forall (fun k => is_Some (record !! k)) required_fields).
Proof.
  unfold metadata_func.
  destruct (forallb _ required_fields) eqn:Hall.
  - apply required_fields_present in Hall as Hpresent.
    split; [intros _|split; [done|]].
    + eexists. split; [reflexivity|]. split; [|split].
      * intros k Hk. unfold required_fields in Hk, Hpresent.
        repeat (apply Forall_cons in Hpresent as [? Hpresent]).
        repeat (apply elem_of_cons in Hk as [->|Hk]);
          [..|by apply elem_of_nil in Hk];
          repeat (rewrite lookup_insert_ne by done);
          rewrite lookup_insert_eq; by apply get_present.
      * intros k Hk.
        rewrite !lookup_insert_ne; [done|..];
          intros <-; apply Hk; unfold required_fields;
          apply (bool_decide_unpack _); vm_compute; exact I.
      * rewrite !dom_insert_L. unfold required_fields. cbn [list_to_set].
        apply set_eq. intros k. rewrite !elem_of_union, elem_of_empty. tauto.
    + split; [done|]. intros _. unfold returned, ret. cbn. eauto.
  - assert (Habsent : ~ Forall (fun k => is_Some (record !! k)) required_fields).
    { rewrite <- required_fields_present, Hall. done. }
    split; [done|]. split; [done|].
    split; [|done]. unfold returned, bind, print, ret. cbn. by intros [? ?].
Qed.

End Proofs.

(** * The theorems at work *)

Example combine_documents_sample :
  fst (_combine_documents [doc_policy; doc_tax; doc_blank; doc_plain]
         LLM_DOCUMENT_PROMPT default_separator [])
  = Some (nl +:+ "---" +:+ nl +:+ "SOURCE: Work From Home Policy" +:+ nl
          +:+ "Work two days from home." +:+ nl +:+ "---" +:+ nl
          +:+ nl +:+ nl
          +:+ nl +:+ "---" +:+ nl +:+ "SOURCE: n" +:+ nl +:+ "b" +:+ nl
          +:+ "---" +:+ nl).
Proof. vm_compute. reflexivity. Qed.

(** A template that asks for a metadata entry the document lacks makes
    [format_document], and with it [_combine_documents], raise. *)
Example combine_documents_raises :
  fst (_combine_documents [doc_plain] [Field "summary"] default_separator []) = None.
Proof. vm_compute. reflexivity. Qed.

Example combine_documents_nil :
  _combine_documents (V := json) [] LLM_DOCUMENT_PROMPT default_separator []
  = (Some "", []).
Proof. reflexivity. Qed.

Example json_format_int : json_format (JInt (-15)) = "-15".
Proof. vm_compute. reflexivity. Qed.

Lemma empty_context_keeps_the_prompt_witness :
  Forall (fun doc => passes doc = false) [doc_tax; doc_blank]
  /\ _combine_documents [doc_tax; doc_blank] LLM_DOCUMENT_PROMPT default_separator []
     = (Some "", reports [doc_tax; doc_blank])
  /\ fst (chain_prompt (fun _ => ret [doc_tax; doc_blank]) "how?" [])
     = Some [HumanMessage (context_prompt_text "" "how?")]
  /\ fst (chain (fun _ => ret [doc_tax; doc_blank]) ret "how?" [])
     = Some ("Human: " +:+ context_prompt_text "" "how?").
Proof.
  assert (Hall : Forall (fun doc => passes doc = false) [doc_tax; doc_blank])
    by (repeat constructor).
  destruct (empty_context_keeps_the_prompt _ Hall) as [Hempty Hchain].
  split; [exact Hall|]. split; [apply Hempty|].
  destruct (Hchain (fun _ => ret [doc_tax; doc_blank]) ret "how?" [] [] eq_refl)
    as [Hprompt Hmodel].
  rewrite Hprompt, Hmodel. split; reflexivity.
Defined.

(** C9 as the claim has it fails: two documents with the same page content
    and the same [name] entry, one of which has a metadata entry named
    [page_content], give different contexts. *)
Lemma shadowed_page_content_changes_context :
  Forall2 same_text_and_name [doc_plain] [doc_shadowed]
  /\ fst (_combine_documents [doc_plain] LLM_DOCUMENT_PROMPT default_separator [])
     <> fst (_combine_documents [doc_shadowed] LLM_DOCUMENT_PROMPT default_separator []).
Proof.
  split.
  - repeat constructor.
  - vm_compute. discriminate.
Qed.

Lemma context_depends_on_template_fields_witness :
  Forall2 same_fields [doc_policy; doc_tax]
    [mkDocument (page_content doc_policy)
       (<["summary" := JStr "Rules for remote work."]> (metadata doc_policy));
     mkDocument (page_content doc_tax) (<["url" := JStr "./github/tax.txt"]> (metadata doc_tax))]
  /\ fst (_combine_documents [doc_policy; doc_tax] LLM_DOCUMENT_PROMPT default_separator [])
     = fst (_combine_documents
              [mkDocument (page_content doc_policy)
                 (<["summary" := JStr "Rules for remote work."]> (metadata doc_policy));
               mkDocument (page_content doc_tax)
                 (<["url" := JStr "./github/tax.txt"]> (metadata doc_tax))]
              LLM_DOCUMENT_PROMPT default_separator []).
Proof.
  assert (Hsame : Forall2 same_fields [doc_policy; doc_tax]
    [mkDocument (page_content doc_policy)
       (<["summary" := JStr "Rules for remote work."]> (metadata doc_policy));
     mkDocument (page_content doc_tax)
       (<["url" := JStr "./github/tax.txt"]> (metadata doc_tax))])
    by (repeat constructor).
  split; [exact Hsame|].
  apply (context_depends_on_template_fields _ _ default_separator [] [] Hsame).
Defined.

Lemma combine_documents_app_witness :
  existsb passes [doc_policy; doc_tax] = true
  /\ existsb passes [doc_blank; doc_plain] = true
  /\ (exists a b,
       fst (_combine_documents [doc_policy; doc_tax] LLM_DOCUMENT_PROMPT
              default_separator []) = Some a
       /\ fst (_combine_documents [doc_blank; doc_plain] LLM_DOCUMENT_PROMPT
                 default_separator []) = Some b
       /\ fst (_combine_documents ([doc_policy; doc_tax] ++ [doc_blank; doc_plain])
                 LLM_DOCUMENT_PROMPT default_separator [])
          = Some (a +:+ default_separator +:+ b))
  /\ length (List.filter passes [doc_policy; doc_tax; doc_plain]) = 2
  /\ exists first rest,
       length rest = 1
       /\ fst (_combine_documents [doc_policy; doc_tax; doc_plain] LLM_DOCUMENT_PROMPT
                 default_separator [])
          = Some (first +:+ separated default_separator rest).
Proof.
  destruct (combine_documents_app (V := json) default_separator) as [Happ Hcount].
  split; [reflexivity|]. split; [reflexivity|]. split; [|split; [reflexivity|]].
  - apply (Happ [doc_policy; doc_tax] [doc_blank; doc_plain] []); reflexivity.
  - destruct (Hcount [doc_policy; doc_tax; doc_plain] [] 1 eq_refl)
      as (first & rest & _ & Hlen & Hrun & _).
    exists first, rest. split; [exact Hlen|exact Hrun].
Defined.

Lemma metadata_func_all_or_nothing_witness :
  Forall (fun k => is_Some (record_full !! k)) required_fields
  /\ (exists m, metadata_func record_full loader_metadata [] = (Some (Some m, m), [])
        /\ m !! "name" = Some (JStr "Code Of Conduct")
        /\ m !! "seq_num" = Some (JInt 9))
  /\ ~ Forall (fun k => is_Some (record_partial !! k)) required_fields
  /\ metadata_func record_partial loader_metadata []
     = (Some (None, loader_metadata), [SkippingDocument record_partial]).
Proof.
  assert (Hfull : Forall (fun k => is_Some (record_full !! k)) required_fields)
    by (repeat constructor; vm_compute; eexists; reflexivity).
  assert (Hpartial : ~ Forall (fun k => is_Some (record_partial !! k)) required_fields).
  { intros Hall. unfold required_fields in Hall.
    do 4 (apply Forall_cons in Hall as [_ Hall]).
    apply Forall_cons in Hall as [[v Hv] _]. vm_compute in Hv. discriminate. }
  destruct (metadata_func_all_or_nothing record_full loader_metadata [])
    as (Hsome & _ & _).
  destruct (metadata_func_all_or_nothing record_partial loader_metadata [])
    as (_ & Hnone & _).
  split; [exact Hfull|]. split; [|split; [exact Hpartial|exact (Hnone Hpartial)]].
  destruct (Hsome Hfull) as (m & Hrun & Hreq & Hother & _).
  exists m. split; [exact Hrun|]. split.
  - rewrite Hreq by (apply (bool_decide_unpack _); vm_compute; exact I).
    reflexivity.
  - rewrite Hother by (apply (bool_decide_unpack _); vm_compute; exact I).
    reflexivity.
Defined.

(** * Further properties of the code *)

Section MoreProofs.
Context {V : Type} `{PyValue V}.
Implicit Types (doc : Document V) (docs : list (Document V)) (out : list (line V)).

(** ** Templates other than the notebook's *)

Lemma format_is_Some (t : template) (kwargs : gmap string V) :
  is_Some (format t kwargs)
  <-> Forall (fun k => is_Some (kwargs !! k)) (input_variables t).
Proof.
  induction t as [|[text|k] t IH]; cbn [format input_variables omap list_omap].
  - split; [constructor|by eauto].
  - fold (input_variables t). rewrite <- IH.
    destruct (format t kwargs); cbn; split; intros [? ?]; by eauto.
  - fold (input_variables t). rewrite Forall_cons, <- IH.
    destruct (kwargs !! k) as [v|]; cbn.
    + destruct (format t kwargs); cbn; split.
      * by eauto.
      * by eauto.
      * by intros [? ?].
      * by intros [_ [? ?]].
    + split; [by intros [? ?]|by intros [[? ?] _]].
Qed.

Lemma base_info_is_Some doc k :
  is_Some (base_info doc !! k) <-> k = "page_content" \/ is_Some (metadata doc !! k).
Proof.
  unfold base_info. rewrite lookup_union.
  destruct (metadata doc !! k) as [v|] eqn:Hk; cbn.
  - split; [by eauto|]. intros _. destruct ({[_ := _]} !! k); by eauto.
  - rewrite (left_id None _). destruct (decide (k = "page_content")) as [->|Hne].
    + rewrite lookup_singleton_eq. split; by eauto.
    + rewrite lookup_singleton_ne by done. split; [by intros [? ?]|].
      intros [?|[? ?]]; done.
Qed.

Lemma format_document_is_Some doc prompt :
  is_Some (format_document doc prompt) <-> formattable doc prompt.
Proof.
  unfold format_document, formattable.
  rewrite <- (Forall_iff (fun k => is_Some (base_info doc !! k)))
    by (intros k; apply base_info_is_Some).
  destruct (forallb _ _) eqn:Hall.
  - rewrite format_is_Some. done.
  - split; [by intros [? ?]|]. intros Hforall. exfalso.
    assert (Htrue : forallb (fun k => has_key k (base_info doc))
                      (input_variables prompt) = true).
    { apply List.forallb_forall. intros k Hin. apply has_key_true.
      by apply (proj1 (List.Forall_forall _ _) Hforall). }
    congruence.
Qed.

(** The loop on two lists in a row. *)
Lemma combine_loop_app docs1 docs2 prompt : forall doc_strings out,
  combine_loop (docs1 ++ docs2) prompt doc_strings out
  = bind (combine_loop docs1 prompt doc_strings)
      (fun doc_strings' => combine_loop docs2 prompt doc_strings') out.
Proof.
  induction docs1 as [|doc docs1 IH]; intros doc_strings out; [done|].
  cbn [app combine_loop].
  destruct (negb (has_key "name" (metadata doc))).
  { unfold bind at 1 3, print. cbn. apply IH. }
  destruct (String.eqb (page_content doc) "").
  { unfold bind at 1 3, print. cbn. apply IH. }
  unfold bind at 1 3, lift. destruct (format_document doc prompt); [apply IH|done].
Qed.

Lemma combine_loop_formatted docs prompt : forall strings doc_strings out,
  Forall2 (fun doc s => format_document doc prompt = Some s)
    (List.filter passes docs) strings ->
  combine_loop docs prompt doc_strings out
  = (Some (doc_strings ++ strings), out ++ reports docs).
Proof.
  induction docs as [|doc docs IH]; intros strings doc_strings out Hall.
  - apply Forall2_nil_inv_l in Hall as ->. cbn. by rewrite !app_nil_r.
  - rewrite reports_cons. cbn [combine_loop List.filter] in *. unfold passes in Hall.
    destruct (has_key "name" (metadata doc)); cbn [negb andb] in *.
    + destruct (String.eqb (page_content doc) ""); cbn [negb] in *.
      * unfold bind, print. rewrite (IH strings) by done. by rewrite <- app_assoc.
      * apply Forall2_cons_inv_l in Hall as (s & strings' & Hs & Hall & ->).
        unfold bind, lift. rewrite Hs, (IH strings') by done.
        by rewrite <- app_assoc.
    + unfold bind, print. rewrite (IH strings) by done. by rewrite <- app_assoc.
Qed.

Lemma formatted_strings docs prompt :
  Forall (fun doc => formattable doc prompt) docs ->
  exists strings, Forall2 (fun doc s => format_document doc prompt = Some s) docs strings.
Proof.
  induction 1 as [|doc docs Hdoc _ [strings IH]]; [by exists []|].
  apply format_document_is_Some in Hdoc as [s Hs]. exists (s :: strings).
  by constructor.
Qed.


Lemma combine_loop_is_Some docs prompt : forall doc_strings out,
  is_Some (fst (combine_loop docs prompt doc_strings out))
  <-> Forall (fun doc => formattable doc prompt) (List.filter passes docs).
Proof.
  induction docs as [|doc docs IH]; intros doc_strings out.
  - cbn. split; [constructor|by eauto].
  - cbn [combine_loop List.filter]. unfold passes.
    destruct (has_key "name" (metadata doc)); cbn [negb andb].
    + destruct (String.eqb (page_content doc) ""); cbn [negb].
      * unfold bind, print. apply IH.
      * unfold bind, lift. rewrite Forall_cons, <- format_document_is_Some.
        destruct (format_document doc prompt) as [s|].
        -- rewrite IH. split; [by eauto|by intros [_ ?]].
        -- cbn. split; [by intros [? ?]|by intros [[? ?] _]].
    + unfold bind, print. apply IH.
Qed.



(** ** The empty context *)

Lemma instantiate_not_empty doc s : instantiate doc +:+ s <> "".
Proof. destruct (instantiate_head doc) as [tail ->]. discriminate. Qed.

Lemma filter_passes_nil docs :
  List.filter passes docs = [] -> Forall (fun doc => passes doc = false) docs.
Proof.
  induction docs as [|doc docs IH]; [constructor|]. cbn [List.filter].
  destruct (passes doc) eqn:Hdoc; [done|]. intros Hnil. constructor; auto.
Qed.

(** X3. On the notebook's document template and for every separator, the
    returned context is the empty string exactly when no document passes
    the check. *)
Theorem empty_context_iff_none_passes docs sep out :
  fst (_combine_documents docs LLM_DOCUMENT_PROMPT sep out) = Some ""
  <-> Forall (fun doc => passes doc = false) docs.
Proof.
  rewrite combine_documents_default. cbn [fst]. split.
  - intros Hempty. apply filter_passes_nil.
    destruct (List.filter passes docs) as [|doc valid]; [done|].
    cbn [map] in Hempty. rewrite concat_cons in Hempty.
    injection Hempty as Hempty. by apply instantiate_not_empty in Hempty.
  - intros Hall. by rewrite filter_passes_none.
Qed.

(** ** Skipped documents *)

(** X4. Whatever the template and the separator, documents that fail the
    check change nothing of the returned value (or of the exception),
    wherever they stand in the list. *)
Theorem skipped_documents_change_nothing before skipped after prompt sep out :
  Forall (fun doc => passes doc = false) skipped ->
  fst (_combine_documents (before ++ skipped ++ after) prompt sep out)
  = fst (_combine_documents (before ++ after) prompt sep out).
Proof.
  intros Hskipped. unfold _combine_documents, bind.
  rewrite !combine_loop_app. unfold bind.
  destruct (combine_loop before prompt [] out) as [[doc_strings|] out']; [|done].
  rewrite combine_loop_app. unfold bind.
  rewrite combine_loop_all_skipped by done.
  rewrite (combine_loop_frame after _ _ (out' ++ _)).
  rewrite (combine_loop_frame after _ _ out').
  destruct (combine_loop after prompt doc_strings []) as [[ds|] o]; reflexivity.
Qed.

(** ** The size of the context *)

Lemma length_append s t : String.length (s +:+ t) = String.length s + String.length t.
Proof.
  induction s as [|a s IH]; [reflexivity|].
  rewrite append_cons. cbn [String.length]. by rewrite IH.
Qed.

Lemma length_instantiate doc : String.length (instantiate doc) = instantiation_length doc.
Proof.
  unfold instantiate, instantiation_length. rewrite !length_append.
  change (String.length nl) with 1. change (String.length "---") with 3.
  change (String.length "SOURCE: ") with 8. lia.
Qed.

Lemma length_separated sep strings :
  String.length (separated sep strings)
  = list_sum (map String.length strings) + length strings * String.length sep.
Proof.
  induction strings as [|s strings IH]; [reflexivity|].
  cbn [separated fold_right map length]. fold (separated sep strings).
  change (list_sum (String.length s :: map String.length strings))
    with (String.length s + list_sum (map String.length strings)).
  rewrite !length_append, IH. lia.
Qed.

(** X5. On the notebook's document template, the context has as many
    characters as the instantiations of the documents that pass the check
    (19 characters of literal text, the label and the body, each) plus one
    separator for each of them but the first. *)
Theorem context_length docs sep out :
  exists context,
    fst (_combine_documents docs LLM_DOCUMENT_PROMPT sep out) = Some context
    /\ String.length context
       = list_sum (map instantiation_length (List.filter passes docs))
         + (length (List.filter passes docs) - 1) * String.length sep.
Proof.
  rewrite combine_documents_default. cbn [fst]. eexists. split; [reflexivity|].
  destruct (List.filter passes docs) as [|doc valid]; [reflexivity|].
  cbn [map]. rewrite concat_cons, length_append, length_separated.
  rewrite length_instantiate, length_map, map_map.
  rewrite (map_ext _ _ length_instantiate). cbn [length].
  change (list_sum (instantiation_length doc :: map instantiation_length valid))
    with (instantiation_length doc + list_sum (map instantiation_length valid)).
  lia.
Qed.

(** ** The chain *)

(** X6. The chain raises only where the retriever or the model does. When
    the retriever returns documents, the chain is the completion model
    applied to the text of the prompt value: the role of its one human
    message, then [LLM_CONTEXT_PROMPT] filled in with the context of these
    documents and the question as it was asked; the model is called after
    the lines of the skipped documents were printed. When the retriever
    raises, so does the chain, whatever the model. *)
Theorem chain_runs_the_model_on_the_prompt retriever llm question out :
  (forall docs out',
     retriever question out = (Some docs, out') ->
     chain retriever llm question out
     = llm ("Human: "
            +:+ context_prompt_text
                  (String.concat default_separator
                     (map instantiate (List.filter passes docs)))
                  question)
         (out' ++ reports docs))
  /\ (forall out',
        retriever question out = (None, out') ->
        chain retriever llm question out = (None, out')).
Proof.
  split.
  - intros docs out' Hdocs. unfold chain, bind.
    by rewrite (chain_prompt_default _ _ _ _ _ Hdocs).
  - intros out' Hraise. unfold chain, chain_prompt, _context, bind.
    by rewrite Hraise.
Qed.

(** ** What the context does not tell *)

Lemma instantiate_named (label text : string) :
  instantiate (named label text)
  = document_head +:+ label +:+ nl +:+ text +:+ document_foot.
Proof.
  unfold instantiate, source_label, body, get, named. cbn [metadata page_content].
  rewrite lookup_singleton_eq, lookup_singleton_ne by done. cbn [from_option id].
  rewrite py_format_str. unfold document_head, document_foot.
  rewrite !append_assoc. reflexivity.
Qed.

Lemma passes_named (label text : string) : text <> "" -> passes (named label text) = true.
Proof.
  intros Htext. apply passes_true. cbn [named metadata page_content].
  rewrite lookup_singleton_eq. by eauto.
Qed.

Lemma append_not_empty s t : s <> "" -> s +:+ t <> "".
Proof. by destruct s. Qed.

(** X7. The context does not delimit its documents. A single document
    whose page content holds the foot of the template, a separator, the
    head of the template, a label and a text gives the very context that
    two documents give. *)
Theorem context_does_not_delimit_documents label1 text1 label2 text2 sep out :
  text1 <> "" ->
  text2 <> "" ->
  fst (_combine_documents
         [named label1 (text1 +:+ document_foot +:+ sep +:+ document_head
                        +:+ label2 +:+ nl +:+ text2)]
         LLM_DOCUMENT_PROMPT sep out)
  = fst (_combine_documents [named label1 text1; named label2 text2]
           LLM_DOCUMENT_PROMPT sep out).
Proof.
  intros Htext1 Htext2. rewrite !combine_documents_default. cbn [fst List.filter].
  rewrite !passes_named by auto using append_not_empty.
  cbn [map String.concat]. rewrite !instantiate_named, !append_assoc. reflexivity.
Qed.

(** ** Ingestion *)

Lemma metadata_func_returned (record metadata : gmap string V) out m :
  returned (metadata_func record metadata out) = Some m ->
  forallb (fun field => has_key field record) required_fields = true
  /\ m = <["updated_at" := get record "updated_at"]>
           (<["category" := get record "category"]>
              (<["url" := get record "url"]>
                 (<["summary" := get record "summary"]>
                    (<["name" := get record "name"]> metadata)))).
Proof.
  unfold metadata_func.
  destruct (forallb _ required_fields); unfold returned, bind, print, ret; cbn.
  - intros [= <-]. done.
  - done.
Qed.

(** X8. Ingestion and context assembly fit: a document whose metadata is
    a dict [metadata_func] returned and whose page content is not empty is
    never skipped by [_combine_documents], which shows it under the label
    of the record's [name] and prints nothing. *)
Theorem ingested_document_is_shown record given out m text sep out' :
  returned (metadata_func record given out) = Some m ->
  text <> "" ->
  _combine_documents [mkDocument text m] LLM_DOCUMENT_PROMPT sep out'
  = (Some (instantiate (mkDocument text m)), out')
  /\ source_label (mkDocument text m) = py_format (get record "name").
Proof.
  intros Hm Htext. apply metadata_func_returned in Hm as [_ ->].
  assert (Hname : forall md : gmap string V,
    <["updated_at" := get record "updated_at"]>
      (<["category" := get record "category"]>
         (<["url" := get record "url"]>
            (<["summary" := get record "summary"]>
               (<["name" := get record "name"]> md)))) !! "name"
    = Some (get record "name")).
  { intros md. rewrite !lookup_insert_ne by done. apply lookup_insert_eq. }
  split.
  - rewrite combine_documents_default. cbn [List.filter].
    rewrite (proj2 (passes_true _)).
    + cbn [map reports flat_map]. unfold passes. cbn [metadata page_content].
      rewrite (proj2 (has_key_true _ _)) by (rewrite Hname; eauto).
      rewrite (proj2 (String.eqb_neq _ _) Htext). cbn. by rewrite !app_nil_r.
    + cbn [metadata page_content]. rewrite Hname. by eauto.
  - unfold source_label. cbn [metadata]. unfold get at 1. by rewrite Hname.
Qed.

(** X9. [metadata_func] is idempotent on what it returns: called again
    with the same record and the dict it returned, it returns that dict
    unchanged and prints nothing. *)
Theorem metadata_func_idempotent (record metadata : gmap string V) out m out' :
  returned (metadata_func record metadata out) = Some m ->
  metadata_func record m out' = (Some (Some m, m), out').
Proof.
  intros Hm. apply metadata_func_returned in Hm as [Hall ->].
  unfold metadata_func. rewrite Hall. unfold ret.
  match goal with |- (Some (Some ?m2, _), _) = (Some (Some ?m1, _), _) =>
    assert (Hid : m2 = m1) end.
  { apply map_eq; intros k.
    destruct (decide (k = "updated_at")) as [->|?];
      [by rewrite !lookup_insert_eq|rewrite !(lookup_insert_ne _ "updated_at") by done].
    destruct (decide (k = "category")) as [->|?];
      [by rewrite !lookup_insert_eq|rewrite !(lookup_insert_ne _ "category") by done].
    destruct (decide (k = "url")) as [->|?];
      [by rewrite !lookup_insert_eq|rewrite !(lookup_insert_ne _ "url") by done].
    destruct (decide (k = "summary")) as [->|?];
      [by rewrite !lookup_insert_eq|rewrite !(lookup_insert_ne _ "summary") by done].
    destruct (decide (k = "name")) as [->|?];
      [by rewrite !lookup_insert_eq|].
    by rewrite !lookup_insert_ne by done. }
  by rewrite Hid.
Qed.

(** X10. [metadata_func] reads the five required entries of the record and
    nothing else: two records that agree on them give the same returned
    value and leave the dict the same, whatever their other entries (the
    content of the document among them). *)
Theorem metadata_func_reads_required_fields_only
    (record1 record2 metadata : gmap string V) out :
  (forall k, k ∈ required_fields -> record1 !! k = record2 !! k) ->
  fst (metadata_func record1 metadata out) = fst (metadata_func record2 metadata out).
Proof.
  intros Hagree.
  assert (Hname := Hagree "name" ltac:(apply (bool_decide_unpack _); vm_compute; exact I)).
  assert (Hsummary := Hagree "summary" ltac:(apply (bool_decide_unpack _); vm_compute; exact I)).
  assert (Hurl := Hagree "url" ltac:(apply (bool_decide_unpack _); vm_compute; exact I)).
  assert (Hcategory := Hagree "category" ltac:(apply (bool_decide_unpack _); vm_compute; exact I)).
  assert (Hupdated := Hagree "updated_at" ltac:(apply (bool_decide_unpack _); vm_compute; exact I)).
  unfold metadata_func, required_fields, has_key, get. cbn [forallb].
  rewrite Hname, Hsummary, Hurl, Hcategory, Hupdated.
  destruct (_ && _); reflexivity.
Qed.

(** ** Accounting *)

Lemma length_reports docs :
  length (reports docs) + length (List.filter passes docs) = length docs.
Proof.
  induction docs as [|doc docs IH]; [reflexivity|].
  rewrite reports_cons, length_app. cbn [List.filter length].
  set (valid := List.filter passes docs) in *. unfold passes.
  destruct (has_key "name" (metadata doc)); cbn [negb andb].
  - destruct (String.eqb (page_content doc) ""); cbn [negb length]; lia.
  - cbn [length]. lia.
Qed.

(** X11. Whatever the template, when [_combine_documents] returns, it has
    only added lines to what was printed, and every document of the list
    is accounted for once: it either passed the check and is in the
    context, or one line was printed for it. *)
Theorem combine_documents_accounts_for_every_document docs prompt sep out context out' :
  _combine_documents docs prompt sep out = (Some context, out') ->
  exists lines,
    out' = out ++ lines
    /\ length lines + length (List.filter passes docs) = length docs.
Proof.
  intros Hrun. exists (reports docs). split; [|apply length_reports].
  assert (Hsome : is_Some (fst (combine_loop docs prompt [] out))).
  { unfold _combine_documents, bind in Hrun.
    destruct (combine_loop docs prompt [] out) as [[ds|] o]; [by eauto|done]. }
  apply combine_loop_is_Some, formatted_strings in Hsome as [strings Hstrings].
  unfold _combine_documents, bind in Hrun.
  rewrite (combine_loop_formatted _ _ _ _ _ Hstrings) in Hrun. unfold ret in Hrun.
  congruence.
Qed.

End MoreProofs.

(** * The further properties at work *)



Lemma skipped_documents_change_nothing_witness :
  Forall (fun doc => passes doc = false) [doc_tax; doc_blank]
  /\ fst (_combine_documents ([doc_policy] ++ [doc_tax; doc_blank] ++ [doc_plain])
            LLM_DOCUMENT_PROMPT default_separator [])
     = fst (_combine_documents ([doc_policy] ++ [doc_plain])
              LLM_DOCUMENT_PROMPT default_separator []).
Proof.
  assert (Hskipped : Forall (fun doc => passes doc = false) [doc_tax; doc_blank])
    by (repeat constructor).
  split; [exact Hskipped|].
  apply (skipped_documents_change_nothing [doc_policy] [doc_tax; doc_blank] [doc_plain]
           LLM_DOCUMENT_PROMPT default_separator [] Hskipped).
Defined.

Lemma chain_runs_the_model_on_the_prompt_witness :
  chain (fun _ => ret [doc_plain; doc_tax]) ret "how?" []
  = (Some ("Human: " +:+ context_prompt_text (instantiate doc_plain) "how?"),
     [MissingName (metadata doc_tax)])
  /\ chain (V := json) (fun _ => lift None) ret "how?" [] = (None, []).
Proof.
  destruct (chain_runs_the_model_on_the_prompt (V := json)
              (fun _ => ret [doc_plain; doc_tax]) ret "how?" []) as [Hruns _].
  destruct (chain_runs_the_model_on_the_prompt (V := json)
              (fun _ => lift None) ret "how?" []) as [_ Hraises].
  split.
  - exact (Hruns [doc_plain; doc_tax] [] eq_refl).
  - exact (Hraises [] eq_refl).
Defined.

Lemma context_does_not_delimit_documents_witness :
  fst (_combine_documents (V := json)
         [named "a" ("b" +:+ document_foot +:+ default_separator +:+ document_head
                     +:+ "c" +:+ nl +:+ "d")]
         LLM_DOCUMENT_PROMPT default_separator [])
  = fst (_combine_documents [named "a" "b"; named "c" "d"]
           LLM_DOCUMENT_PROMPT default_separator []).
Proof.
  apply (context_does_not_delimit_documents (V := json) "a" "b" "c" "d"
           default_separator []); discriminate.
Defined.

Lemma ingested_document_is_shown_witness :
  exists m,
    returned (metadata_func record_full loader_metadata []) = Some m
    /\ _combine_documents [mkDocument "Be kind." m] LLM_DOCUMENT_PROMPT
         default_separator []
       = (Some (instantiate (mkDocument "Be kind." m)), [])
    /\ source_label (mkDocument "Be kind." m) = "Code Of Conduct".
Proof.
  eexists. split; [reflexivity|].
  exact (ingested_document_is_shown record_full loader_metadata [] _ "Be kind."
           default_separator [] eq_refl ltac:(discriminate)).
Defined.

Lemma metadata_func_idempotent_witness :
  exists m,
    returned (metadata_func record_full loader_metadata []) = Some m
    /\ metadata_func record_full m [] = (Some (Some m, m), []).
Proof.
  eexists. split; [reflexivity|].
  apply (metadata_func_idempotent record_full loader_metadata [] _ []). reflexivity.
Defined.

Lemma metadata_func_reads_required_fields_only_witness :
  fst (metadata_func record_full loader_metadata [])
  = fst (metadata_func (<["content" := JStr "Other text."]> record_full)
           loader_metadata []).
Proof.
  apply (metadata_func_reads_required_fields_only record_full
           (<["content" := JStr "Other text."]> record_full) loader_metadata []).
  intros k Hk. rewrite lookup_insert_ne; [reflexivity|].
  intros <-. unfold required_fields in Hk.
  repeat (apply elem_of_cons in Hk as [Hk|Hk]; [discriminate Hk|]).
  by apply elem_of_nil in Hk.
Defined.

Lemma combine_documents_accounts_for_every_document_witness :
  exists lines,
    [MissingName (metadata doc_tax); MissingPageContent (metadata doc_blank)]
    = [] ++ lines
    /\ length lines + length (List.filter passes [doc_policy; doc_tax; doc_blank]) = 3.
Proof.
  apply (combine_documents_accounts_for_every_document
           [doc_policy; doc_tax; doc_blank] LLM_DOCUMENT_PROMPT default_separator []
           (instantiate doc_policy)
           [MissingName (metadata doc_tax); MissingPageContent (metadata doc_blank)]).
  reflexivity.
Defined.

(** * The retriever of the spec and the stages of the chain *)

Section RetrieverProofs.
Context {V : Type} `{PyValue V}.
Implicit Types (doc : Document V) (docs found : list (Document V))
  (out : list (line V)) (queries : list string).

(** ** Query expansion *)

Lemma expand_query_returns expand query N out :
  exists queries out',
    expand_query expand query N out = (Some queries, out')
    /\ 1 <= length queries
    /\ (1 <= N -> length queries <= N).
Proof.
  unfold expand_query.
  destruct (expand query N out) as [[answer|] out'].
  - destruct (take N (distinct [] answer)) as [|q expanded] eqn:Htake.
    + do 2 eexists. split; [reflexivity|]. cbn. lia.
    + do 2 eexists. split; [reflexivity|]. rewrite <- Htake.
      split; [rewrite Htake; cbn; lia|]. intros _. rewrite length_take. lia.
  - do 2 eexists. split; [reflexivity|]. cbn. lia.
Qed.

(** ** The searches *)

Lemma search_each_returns search queries top_k : forall out,
  exists found out', search_each search queries top_k out = (Some found, out').
Proof.
  induction queries as [|query queries IH]; intros out; [by do 2 eexists|].
  cbn [search_each]. destruct (search query top_k out) as [[found|] out1].
  - unfold bind, ret. destruct (IH out1) as (more & out2 & ->). by do 2 eexists.
  - unfold bind, print. apply IH.
Qed.


Lemma multi_query_retriever_returns expand search N top_k question out :
  exists queries out1 found out2,
    expand_query expand question N out = (Some queries, out1)
    /\ search_each search queries top_k out1 = (Some found, out2)
    /\ multi_query_retriever expand search N top_k question out
       = (Some (dedupe [] found), out2).
Proof.
  destruct (expand_query_returns expand question N out) as (queries & out1 & Hexpand & _).
  destruct (search_each_returns search queries top_k out1) as (found & out2 & Hsearch).
  exists queries, out1, found, out2. split; [done|]. split; [done|].
  unfold multi_query_retriever, bind. by rewrite Hexpand, Hsearch.
Qed.

(** ** The merge *)

Lemma dedupe_fresh docs : forall seen content,
  content ∈ page_content <$> dedupe seen docs -> content ∉ seen.
Proof.
  induction docs as [|doc docs IH]; intros seen content Hin.
  - by apply elem_of_nil in Hin.
  - cbn [dedupe] in Hin. case_bool_decide as Hseen; [by apply IH|].
    rewrite fmap_cons in Hin. apply elem_of_cons in Hin as [->|Hin]; [done|].
    apply IH in Hin. intros Hseen'. apply Hin. by right.
Qed.

Lemma dedupe_NoDup docs : forall seen, NoDup (page_content <$> dedupe seen docs).
Proof.
  induction docs as [|doc docs IH]; intros seen; [constructor|].
  cbn [dedupe]. case_bool_decide as Hseen; [apply IH|].
  rewrite fmap_cons. constructor; [|apply IH].
  intros Hin. apply dedupe_fresh in Hin. apply Hin. by left.
Qed.

Lemma dedupe_keeps docs : forall seen doc,
  doc ∈ docs ->
  page_content doc ∈ seen \/ page_content doc ∈ page_content <$> dedupe seen docs.
Proof.
  induction docs as [|d docs IH]; intros seen doc Hin.
  - by apply elem_of_nil in Hin.
  - cbn [dedupe]. apply elem_of_cons in Hin as [->|Hin].
    + case_bool_decide as Hseen; [by left|]. right. rewrite fmap_cons. by left.
    + case_bool_decide as Hseen; [by apply IH|].
      destruct (IH (page_content d :: seen) doc Hin) as [Hseen'|Hkept].
      * apply elem_of_cons in Hseen' as [->|Hseen']; [|by left].
        right. rewrite fmap_cons. by left.
      * right. rewrite fmap_cons. by right.
Qed.

Lemma one_per_content docs content :
  NoDup (page_content <$> docs) ->
  content ∈ page_content <$> docs ->
  length (List.filter (fun d => String.eqb (page_content d) content) docs) = 1.
Proof.
  induction docs as [|doc docs IH]; intros Hnodup Hin.
  - by apply elem_of_nil in Hin.
  - rewrite fmap_cons in Hnodup, Hin. apply NoDup_cons in Hnodup as [Hfresh Hnodup].
    cbn [List.filter]. destruct (String.eqb_spec (page_content doc) content) as [Heq|Hne].
    + cbn [length]. f_equal. subst content.
      assert (Hnone : forall l : list (Document V),
        page_content doc ∉ page_content <$> l ->
        List.filter (fun d => String.eqb (page_content d) (page_content doc)) l = []).
      { clear. induction l as [|d l IHl]; intros Hfresh; [done|].
        rewrite fmap_cons in Hfresh. apply not_elem_of_cons in Hfresh as [Hne Hfresh].
        cbn [List.filter]. destruct (String.eqb_spec (page_content d) (page_content doc));
          [congruence|by apply IHl]. }
      by rewrite Hnone.
    + apply IH; [done|]. apply elem_of_cons in Hin as [->|Hin]; done.
Qed.

(** C4. Modelled from the spec. The set the multi-query retriever
    returns is the merge of what the searches returned; no two of its
    documents have the same content, and the content of every document a
    search returned, by however many queries, is the content of exactly one
    document of the set. *)
Theorem retrieved_set_has_one_document_per_content
    expand search N top_k question out :
  exists queries out1 found out2,
    expand_query expand question N out = (Some queries, out1)
    /\ search_each search queries top_k out1 = (Some found, out2)
    /\ multi_query_retriever expand search N top_k question out
       = (Some (dedupe [] found), out2)
    /\ NoDup (page_content <$> dedupe [] found)
    /\ (forall doc,
          doc ∈ found ->
          length (List.filter
                    (fun d => String.eqb (page_content d) (page_content doc))
                    (dedupe [] found)) = 1).
Proof.
  destruct (multi_query_retriever_returns expand search N top_k question out)
    as (queries & out1 & found & out2 & Hexpand & Hsearch & Hrun).
  exists queries, out1, found, out2. do 3 (split; [done|]).
  split; [apply dedupe_NoDup|]. intros doc Hin.
  apply one_per_content; [apply dedupe_NoDup|].
  destruct (dedupe_keeps found [] doc Hin) as [Hnil|Hkept]; [|done].
  by apply elem_of_nil in Hnil.
Qed.



(** C7. Modelled from the spec for the retriever. A run of the chain is
    its four stages, each one started on the log the stage before it left:
    query expansion on the log of the call; the searches on the log query
    expansion left when it returned; context assembly on the log the
    searches left; and the model on the log context assembly left, called
    on the prompt that holds the context context assembly returned. *)
Theorem stages_run_in_order expand search llm N top_k question out :
  exists queries out1 found out2 context,
    expand_query expand question N out = (Some queries, out1)
    /\ search_each search queries top_k out1 = (Some found, out2)
    /\ _combine_documents (dedupe [] found) LLM_DOCUMENT_PROMPT default_separator out2
       = (Some context, out2 ++ reports (dedupe [] found))
    /\ chain (multi_query_retriever expand search N top_k) llm question out
       = llm ("Human: " +:+ context_prompt_text context question)
           (out2 ++ reports (dedupe [] found)).
Proof.
  destruct (multi_query_retriever_returns expand search N top_k question out)
    as (queries & out1 & found & out2 & Hexpand & Hsearch & Hretriever).
  exists queries, out1, found, out2. eexists.
  split; [done|]. split; [done|]. split; [apply combine_documents_default|].
  unfold chain, bind. by rewrite (chain_prompt_default _ _ _ _ _ Hretriever).
Qed.

End RetrieverProofs.

(** * The retriever at work *)

(** Services for three queries, the second of which cannot be searched. *)
Example retriever_sample :
  multi_query_retriever (V := json)
    (fun _ _ => ret ["a"; "b"; "c"; "a"])
    (fun query _ =>
       if String.eqb query "b" then lift None
       else if String.eqb query "a" then ret [doc_policy; doc_tax]
       else ret [doc_tax; doc_plain])
    3 4 "q" []
  = (Some [doc_policy; doc_tax; doc_plain], [SearchFailed "b"]).
Proof. vm_compute. reflexivity. Qed.

(** C1 as the claim has it fails: the body the context shows of a document
    whose metadata has an entry named [page_content] is that entry, not the
    page content of the document. *)
Lemma shadowed_body_is_not_the_page_content :
  passes doc_shadowed = true
  /\ fst (_combine_documents [doc_shadowed] LLM_DOCUMENT_PROMPT default_separator [])
     <> Some (String.concat default_separator
                (map instantiate_page_content (List.filter passes [doc_shadowed]))).
Proof. split; [reflexivity|]. vm_compute. discriminate. Qed.




(** Fields with a conversion or a format specification are not templates
    of the fragment. *)
Example from_template_refuses_conversion :
  from_template "SOURCE: {name!r}" = None /\ from_template "{seq_num:d}" = None.
Proof. split; reflexivity. Qed.
